(** * The reply tool of skills/twitter/reply_tweet.py

    A shallow embedding of [TwitterReplyTweetInput], [TwitterReplyTweet._run]
    and [TwitterReplyTweet._arun], and the properties the specification
    states about them.

    The tool talks to three collaborators that live outside the file: the
    authentication provider ([self.twitter]), the rate limiter
    ([self.check_rate_limit]) and the platform client (the object returned by
    [self.twitter.get_client()]).  Their behaviour is a parameter of the
    development: every operation is a function of an abstract collaborator
    state [W], may raise, and may change that state.

    A [string] stands for a Python [str], one character each. *)

From Stdlib Require Import String Ascii List ZArith Lia Bool DecimalString.
Import ListNotations.
Local Open Scope list_scope.
Local Open Scope string_scope.

Set Implicit Arguments.
Set Warnings "-register-all".

(** ** Python values and exceptions *)

(** The values a collaborator can hand back: [None], booleans, integers,
    strings, sequences and mappings with string keys (the shape of a decoded
    JSON document). *)
Inductive pyval : Type :=
| PyNone
| PyBool (b : bool)
| PyInt (z : Z)
| PyStr (s : string)
| PyList (items : list pyval)
| PyDict (entries : list (string * pyval)).

(** An exception object: the name of its class, whether that class derives
    from [Exception] (as opposed to deriving from [BaseException] only, like
    [KeyboardInterrupt], [SystemExit] and [GeneratorExit]), and [str(e)]. *)
Record pyexn : Type := {
  exn_class : string;
  exn_is_Exception : bool;
  exn_str : string
}.

Definition Exception (msg : string) : pyexn :=
  {| exn_class := "Exception"; exn_is_Exception := true; exn_str := msg |}.

Definition TypeError (msg : string) : pyexn :=
  {| exn_class := "TypeError"; exn_is_Exception := true; exn_str := msg |}.

(** [str(KeyError(k))] is [repr(k)]; the keys used below are plain words. *)
Definition KeyError (key : string) : pyexn :=
  {| exn_class := "KeyError"; exn_is_Exception := true;
     exn_str := "'" ++ key ++ "'" |}.

Definition KeyboardInterrupt (msg : string) : pyexn :=
  {| exn_class := "KeyboardInterrupt"; exn_is_Exception := false;
     exn_str := msg |}.

Definition SystemExit (msg : string) : pyexn :=
  {| exn_class := "SystemExit"; exn_is_Exception := false; exn_str := msg |}.

(** The result of evaluating an expression or of calling a function. *)
Inductive result (A : Type) : Type :=
| Ok (a : A)
| Raise (e : pyexn).
Arguments Ok {A} a.
Arguments Raise {A} e.

(** [type(v).__name__], as it appears in the interpreter's error messages. *)
Definition py_type_name (v : pyval) : string :=
  match v with
  | PyNone => "NoneType"
  | PyBool _ => "bool"
  | PyInt _ => "int"
  | PyStr _ => "str"
  | PyList _ => "list"
  | PyDict _ => "dict"
  end.

Fixpoint dict_get (key : string) (entries : list (string * pyval)) : option pyval :=
  match entries with
  | [] => None
  | (k, v) :: rest => if String.eqb k key then Some v else dict_get key rest
  end.

Definition is_substring (needle hay : string) : bool :=
  match String.index 0 needle hay with
  | Some _ => true
  | None => false
  end.

Definition py_eq_str (key : string) (v : pyval) : bool :=
  match v with
  | PyStr s => String.eqb s key
  | _ => false
  end.

(** [key in container] for a string [key]: membership among the keys of a
    mapping, among the items of a sequence, as a substring of a string; the
    other values are not containers.  The messages are CPython 3.12's. *)
Definition py_contains (key : string) (container : pyval) : result bool :=
  match container with
  | PyDict entries =>
      Ok (match dict_get key entries with Some _ => true | None => false end)
  | PyList items => Ok (existsb (py_eq_str key) items)
  | PyStr s => Ok (is_substring key s)
  | v => Raise (TypeError ("argument of type '" ++ py_type_name v
                           ++ "' is not iterable"))
  end.

(** [container[key]] for a string [key]. *)
Definition py_getitem (container : pyval) (key : string) : result pyval :=
  match container with
  | PyDict entries =>
      match dict_get key entries with
      | Some v => Ok v
      | None => Raise (KeyError key)
      end
  | PyList _ => Raise (TypeError "list indices must be integers or slices, not str")
  | PyStr _ => Raise (TypeError "string indices must be integers, not 'str'")
  | v => Raise (TypeError ("'" ++ py_type_name v ++ "' object is not subscriptable"))
  end.

Section Formatting.

(** [repr] of a container is the interpreter's; nothing below depends on
    its text. *)
Variable py_repr : pyval -> string.

(** What an f-string substitutes for [{v}]. *)
Definition py_str (v : pyval) : string :=
  match v with
  | PyNone => "None"
  | PyBool true => "True"
  | PyBool false => "False"
  | PyInt z => NilZero.string_of_int (Z.to_int z)
  | PyStr s => s
  | PyList _ | PyDict _ => py_repr v
  end.

End Formatting.

(** ** The input schema (lines 8-12) *)

Record TwitterReplyTweetInput : Type := {
  tweet_id : string;
  text : string
}.

(** The keyword arguments handed to the schema: a field is absent or holds a
    string. *)
Record raw_input : Type := {
  raw_tweet_id : option string;
  raw_text : option string
}.

Inductive field_error : Type :=
| Missing
| StringTooLong (max_length : nat).

(** What constructing a model gives: the model, or a [ValidationError] that
    lists the offending fields. *)
Inductive validated (A : Type) : Type :=
| Valid (a : A)
| ValidationError (errors : list (string * field_error)).
Arguments Valid {A} a.
Arguments ValidationError {A} errors.

(** [tweet_id: str = Field(description=...)] *)
Definition validate_tweet_id (v : option string) : list (string * field_error) :=
  match v with
  | None => [("tweet_id", Missing)]
  | Some _ => []
  end.

(** [text: str = Field(description=..., max_length=280)] *)
Definition validate_text (v : option string) : list (string * field_error) :=
  match v with
  | None => [("text", Missing)]
  | Some s => if (String.length s <=? 280)%nat then [] else [("text", StringTooLong 280)]
  end.

Definition TwitterReplyTweetInput_init (raw : raw_input) : validated TwitterReplyTweetInput :=
  match (validate_tweet_id (raw_tweet_id raw) ++ validate_text (raw_text raw))%list,
        raw_tweet_id raw, raw_text raw with
  | [], Some i, Some t => Valid {| tweet_id := i; text := t |}
  | errors, _, _ => ValidationError errors
  end.

(** ** Statements: state, calls to collaborators, early return, exceptions *)

(** The fields of the tool (lines 26-28).  [args_schema] holds the class
    [TwitterReplyTweetInput], that is, its validating constructor. *)
Record TwitterReplyTweet : Type := {
  name : string;
  description : string;
  args_schema : raw_input -> validated TwitterReplyTweetInput
}.

Definition TwitterReplyTweet_new : TwitterReplyTweet :=
  {| name := "twitter_reply_tweet";
     description := "Reply to an existing tweet on Twitter";
     args_schema := TwitterReplyTweetInput_init |}.

(** A call that leaves the tool, in the order the calls are made. *)
Inductive event : Type :=
| EvUseKey
| EvCheckRateLimit (max_requests interval : Z)
| EvGetClient
| EvCreateTweet (text : string) (user_auth : bool) (in_reply_to_tweet_id : string).

(** How a statement ends: it falls through to the next one, it executes
    [return v], or it raises. *)
Inductive completion (A : Type) : Type :=
| Normal (a : A)
| Returned (v : string)
| Raised (e : pyexn).
Arguments Normal {A} a.
Arguments Returned {A} v.
Arguments Raised {A} e.

Section Tool.

(** [W] is the state of the collaborators (the limiter's counters, the
    session of the authentication provider, the platform itself) and
    [Client] the handle [get_client] returns. *)
Variables W Client : Type.

(** The interfaces consumed.  Reading the flag, asking for a client,
    checking the limit and creating the tweet may each raise and change the
    collaborators' state.  [_get_error_with_username] is the inherited helper
    of the base tool, which puts the acting user's name, where it has one, in
    front of a message; it is taken to be a function from messages to
    strings, one that returns for every message. *)
Record Collaborators : Type := {
  use_key : W -> result bool * W;
  get_client : W -> result (option Client) * W;
  check_rate_limit : Z -> Z -> W -> result (bool * pyval) * W;
  create_tweet : Client -> string -> bool -> string -> W -> result pyval * W;
  _get_error_with_username : string -> string
}.

Record state : Type := {
  self : TwitterReplyTweet;
  world : W
}.

Definition with_world (st : state) (w : W) : state :=
  {| self := self st; world := w |}.

Definition M (A : Type) : Type := state -> completion A * state * list event.

Definition ret {A} (a : A) : M A := fun st => (Normal a, st, []).

Definition bind {A B} (m : M A) (k : A -> M B) : M B :=
  fun st =>
    match m st with
    | (Normal a, st1, t1) =>
        let '(c, st2, t2) := k a st1 in (c, st2, (t1 ++ t2)%list)
    | (Returned v, st1, t1) => (Returned v, st1, t1)
    | (Raised e, st1, t1) => (Raised e, st1, t1)
    end.

Definition return_ {A} (v : string) : M A := fun st => (Returned v, st, []).

Definition raise {A} (e : pyexn) : M A := fun st => (Raised e, st, []).

(** An expression over values. *)
Definition eval {A} (r : result A) : M A :=
  match r with
  | Ok a => ret a
  | Raise e => raise e
  end.

(** A call to a collaborator: it sees and changes [world] only. *)
Definition call {A} (ev : event) (f : W -> result A * W) : M A :=
  fun st =>
    let '(r, w) := f (world st) in
    (match r with Ok a => Normal a | Raise e => Raised e end,
     with_world st w, [ev]).

(** [if c: body] with no [else]. *)
Definition when (c : bool) (body : M unit) : M unit :=
  if c then body else ret tt.

(** [try: body  except Exception as e: handler e] *)
Definition try_except {A} (body : M A) (handler : pyexn -> M A) : M A :=
  fun st =>
    match body st with
    | (Raised e, st1, t1) =>
        if exn_is_Exception e
        then let '(c, st2, t2) := handler e st1 in (c, st2, (t1 ++ t2)%list)
        else (Raised e, st1, t1)
    | r => r
    end.

(** A function body whose every path returns or raises: no value of
    [Empty_set] lets it fall off its end. *)
Definition def (body : M Empty_set) : state -> result string * state * list event :=
  fun st =>
    match body st with
    | (Normal a, _, _) => match a with end
    | (Returned v, st1, t1) => (Ok v, st1, t1)
    | (Raised e, st1, t1) => (Raise e, st1, t1)
    end.

End Tool.

Arguments ret {W A} a.
Arguments return_ {W A} v.
Arguments raise {W A} e.
Arguments eval {W A} r.
Arguments call {W A} ev f.
Arguments when {W} c body.

Declare Scope py_scope.
Delimit Scope py_scope with py.
Notation "x <- m ;; k" := (bind m (fun x => k))
  (at level 61, m at next level, right associativity) : py_scope.
Notation "' pat <- m ;; k" := (bind m (fun x => match x with pat => k end))
  (at level 61, pat pattern, m at next level, right associativity) : py_scope.
Notation "m ;; k" := (bind m (fun _ => k))
  (at level 61, right associativity) : py_scope.
Local Open Scope py_scope.

(** ** Responses, as the specification and as the code see them *)

(** The identifier "at the data.id path" of a response: the response is a
    mapping, its [data] entry is a mapping, and that one has an [id] entry.
    This follows the words of the specification, not the code. *)
Definition nested_identifier (response : pyval) : option pyval :=
  match response with
  | PyDict entries =>
      match dict_get "data" entries with
      | Some (PyDict data) => dict_get "id" data
      | _ => None
      end
  | _ => None
  end.

(** A response of the documented shape: a mapping whose [data] entry, when
    there is one, is a mapping. *)
Definition response_shaped (response : pyval) : bool :=
  match response with
  | PyDict entries =>
      match dict_get "data" entries with
      | None | Some (PyDict _) => true
      | Some _ => false
      end
  | _ => false
  end.

(** The exception, if there is one, that the test of line 65 or the lookup
    of line 66 raises on a response; this one follows the code. *)
Definition inspection_error (response : pyval) : option pyexn :=
  match py_contains "data" response with
  | Raise e => Some e
  | Ok false => None
  | Ok true =>
      match py_getitem response "data" with
      | Raise e => Some e
      | Ok data =>
          match py_contains "id" data with
          | Raise e => Some e
          | Ok false => None
          | Ok true =>
              match py_getitem data "id" with
              | Raise e => Some e
              | Ok _ => None
              end
          end
      end
  end.

(** ** The tool (lines 15-78) *)

Section ReplyTweet.

Variables W Client : Type.

(** [repr] of the interpreter, see [py_str]. *)
Variable py_repr : pyval -> string.

(** [self.twitter], [self.check_rate_limit] and the inherited helper. *)
Variable twitter : Collaborators W Client.

Definition twitter_use_key : M W bool :=
  call EvUseKey (use_key twitter).

Definition twitter_get_client : M W (option Client) :=
  call EvGetClient (get_client twitter).

Definition self_check_rate_limit (max_requests interval : Z) : M W (bool * pyval) :=
  call (EvCheckRateLimit max_requests interval)
       (check_rate_limit twitter max_requests interval).

Definition client_create_tweet (client : Client) (text : string)
    (user_auth : bool) (in_reply_to_tweet_id : string) : M W pyval :=
  call (EvCreateTweet text user_auth in_reply_to_tweet_id)
       (create_tweet twitter client text user_auth in_reply_to_tweet_id).

Definition self_get_error_with_username (msg : string) : string :=
  _get_error_with_username twitter msg.

Definition fmt (v : pyval) : string := py_str py_repr v.

(** [_run], lines 30-71.  A client handle is truthy and [None] is not, so
    [if not client] is the [None] branch of the match. *)
Definition _run (tweet_id text : string)
  : state W -> result string * state W * list event :=
  def (
    try_except (
      use_key <- twitter_use_key ;;
      when (negb use_key) (
        '(is_rate_limited, error) <- self_check_rate_limit 48 1440 ;;
        when is_rate_limited (
          return_ (self_get_error_with_username
                     ("Error replying to tweet: " ++ fmt error)))) ;;
      client <- twitter_get_client ;;
      match client with
      | None =>
          return_ (self_get_error_with_username
                     "Failed to get Twitter client. Please check your authentication.")
      | Some client =>
          user_auth <- twitter_use_key ;;
          response <- client_create_tweet client text user_auth tweet_id ;;
          has_data <- eval (py_contains "data" response) ;;
          has_id <- (if has_data
                     then data <- eval (py_getitem response "data") ;;
                          eval (py_contains "id" data)
                     else ret false) ;;
          when has_id (
            data <- eval (py_getitem response "data") ;;
            reply_id <- eval (py_getitem data "id") ;;
            return_ ("Reply posted successfully! Reply Tweet ID: " ++ fmt reply_id)) ;;
          return_ (self_get_error_with_username "Failed to post reply tweet.")
      end)
    (fun e =>
       return_ (self_get_error_with_username
                  ("Error posting reply tweet: " ++ exn_str e)))).

(** [_arun], lines 73-78.  Calling an [async def] runs nothing: it makes a
    coroutine, whose body runs when it is awaited.  The body is the call
    [self._run(tweet_id=tweet_id, text=text)]. *)
Inductive coroutine : Type :=
| Coroutine (body : state W -> result string * state W * list event).

Definition await (c : coroutine) : state W -> result string * state W * list event :=
  match c with
  | Coroutine body => body
  end.

Definition _arun (tweet_id text : string) : coroutine :=
  Coroutine (fun st => _run tweet_id text st).

(** *** The blocks of [_run], named *)

(** Step 1, lines 45-52. *)
Definition rate_limit_gate : M W unit :=
  use_key <- twitter_use_key ;;
  when (negb use_key) (
    '(is_rate_limited, error) <- self_check_rate_limit 48 1440 ;;
    when is_rate_limited (
      return_ (self_get_error_with_username
                 ("Error replying to tweet: " ++ fmt error)))).

(** Step 4, lines 65-68. *)
Definition interpret_response (response : pyval) : M W Empty_set :=
  has_data <- eval (py_contains "data" response) ;;
  has_id <- (if has_data
             then data <- eval (py_getitem response "data") ;;
                  eval (py_contains "id" data)
             else ret false) ;;
  when has_id (
    data <- eval (py_getitem response "data") ;;
    reply_id <- eval (py_getitem data "id") ;;
    return_ ("Reply posted successfully! Reply Tweet ID: " ++ fmt reply_id)) ;;
  return_ (self_get_error_with_username "Failed to post reply tweet.").

(** Steps 2 and 3, lines 54-63. *)
Definition request_reply (tweet_id text : string) : M W pyval :=
  client <- twitter_get_client ;;
  match client with
  | None =>
      return_ (self_get_error_with_username
                 "Failed to get Twitter client. Please check your authentication.")
  | Some client =>
      user_auth <- twitter_use_key ;;
      client_create_tweet client text user_auth tweet_id
  end.

(** Steps 2 to 4, lines 54-68. *)
Definition post_reply (tweet_id text : string) : M W Empty_set :=
  response <- request_reply tweet_id text ;;
  interpret_response response.

(** Step 5, lines 70-71. *)
Definition on_exception (e : pyexn) : M W Empty_set :=
  return_ (self_get_error_with_username
             ("Error posting reply tweet: " ++ exn_str e)).

(** *** Where an exception can come from *)

(** Step 1 raises [e]: the read of the flag on line 45 does, or the flag is
    false and the check does. *)
Inductive raises_in_step_1 (st : state W) : pyexn -> state W -> list event -> Prop :=
| flag_read_raises e w1 :
    use_key twitter (world st) = (Raise e, w1) ->
    raises_in_step_1 st e (with_world st w1) [EvUseKey]
| check_raises e w1 w2 :
    use_key twitter (world st) = (Ok false, w1) ->
    check_rate_limit twitter 48 1440 w1 = (Raise e, w2) ->
    raises_in_step_1 st e (with_world st w2) [EvUseKey; EvCheckRateLimit 48 1440].

(** Steps 2 to 4 raise [e]: obtaining the client does, or building the
    arguments of the call (the read of the flag on line 62) does, or the call
    itself does, or the inspection of its response does. *)
Inductive raises_in_steps_2_to_4 (tweet_id text : string) (st : state W)
  : pyexn -> state W -> list event -> Prop :=
| get_client_raises e w1 :
    get_client twitter (world st) = (Raise e, w1) ->
    raises_in_steps_2_to_4 tweet_id text st e (with_world st w1) [EvGetClient]
| argument_raises e client w1 w2 :
    get_client twitter (world st) = (Ok (Some client), w1) ->
    use_key twitter w1 = (Raise e, w2) ->
    raises_in_steps_2_to_4 tweet_id text st e (with_world st w2)
      [EvGetClient; EvUseKey]
| create_tweet_raises e client user_auth w1 w2 w3 :
    get_client twitter (world st) = (Ok (Some client), w1) ->
    use_key twitter w1 = (Ok user_auth, w2) ->
    create_tweet twitter client text user_auth tweet_id w2 = (Raise e, w3) ->
    raises_in_steps_2_to_4 tweet_id text st e (with_world st w3)
      [EvGetClient; EvUseKey; EvCreateTweet text user_auth tweet_id]
| inspection_raises e client user_auth response w1 w2 w3 :
    get_client twitter (world st) = (Ok (Some client), w1) ->
    use_key twitter w1 = (Ok user_auth, w2) ->
    create_tweet twitter client text user_auth tweet_id w2 = (Ok response, w3) ->
    inspection_error response = Some e ->
    raises_in_steps_2_to_4 tweet_id text st e (with_world st w3)
      [EvGetClient; EvUseKey; EvCreateTweet text user_auth tweet_id].

(** What the entry point of the tool gives: the input was turned down, or
    the operation ran. *)
Inductive execution : Type :=
| Rejected (errors : list (string * field_error))
| Executed (r : result string).

(** Modelled from the spec: the entry point of the tool framework, which
    is not among the sources.  It builds [args_schema] from the arguments
    it is given ("enforced by schema validation before execution") and
    calls [_run] on the validated fields only; a [ValidationError] leaves
    before the operation runs. *)
Definition execute (raw : raw_input)
  : state W -> execution * state W * list event :=
  fun st =>
    match args_schema (self st) raw with
    | ValidationError errors => (Rejected errors, st, [])
    | Valid input =>
        let '(r, st1, t1) := _run (tweet_id input) (text input) st in
        (Executed r, st1, t1)
    end.

End ReplyTweet.

(** ** What the specification talks about *)

(** "a string containing": [s] occurs in [t]. *)
Definition Embeds (s t : string) : Prop :=
  exists before after, t = before ++ s ++ after.

(** Modelled from the spec: [_get_error_with_username] of the base tool
    (skills/twitter/base.py), which is not among the sources.  The spec has
    the error strings "prefixed with context ..., including the acting
    user's identity where available": with a user name the message is
    prefixed with it, without one the message is returned as it is. *)
Definition get_error_with_username (username : option string) (error_msg : string)
  : string :=
  match username with
  | Some user => "Error for Twitter user @" ++ user ++ ": " ++ error_msg
  | None => error_msg
  end.

Definition is_create_tweet (ev : event) : bool :=
  match ev with
  | EvCreateTweet _ _ _ => true
  | _ => false
  end.

Definition is_get_client (ev : event) : bool :=
  match ev with
  | EvGetClient => true
  | _ => false
  end.

Definition is_check_rate_limit (ev : event) : bool :=
  match ev with
  | EvCheckRateLimit _ _ => true
  | _ => false
  end.

(** The outbound requests among the calls made. *)
Definition requests (calls : list event) : nat :=
  List.length (filter is_create_tweet calls).

(** The three components of a run: what it gives, the state it leaves and
    the calls it made. *)
Definition outcome {A S : Type} (x : A * S * list event) : A := fst (fst x).

Definition final {A S : Type} (x : A * S * list event) : S := snd (fst x).

Definition calls {A S : Type} (x : A * S * list event) : list event := snd x.

(** [l] is a beginning of [l']. *)
Definition Prefix (l l' : list event) : Prop :=
  exists rest, l' = (l ++ rest)%list.

(** ** Concrete collaborators, for the examples *)

Module Sample.

(** [repr], exact on values whose strings are plain words. *)
Fixpoint repr (v : pyval) : string :=
  match v with
  | PyStr s => "'" ++ s ++ "'"
  | PyList items => "[" ++ String.concat ", " (map repr items) ++ "]"
  | PyDict entries =>
      "{" ++ String.concat ", "
               (map (fun kv => "'" ++ fst kv ++ "': " ++ repr (snd kv)) entries)
          ++ "}"
  | other => py_str (fun _ => "") other
  end.

(** A limiter whose state is the number of requests counted in the
    running window. *)
Definition limiter (max_requests interval : Z) (count : nat)
  : result (bool * pyval) * nat :=
  if (max_requests <=? Z.of_nat count)%Z
  then (Ok (true, PyStr "Rate limit exceeded"), count)
  else (Ok (false, PyNone), S count).

(** The user is alice; the flag, the handle and the platform's answer are
    fixed. *)
Definition twitter (key : bool) (handle : result (option unit))
    (answer : result pyval) : Collaborators nat unit :=
  {| use_key := fun w => (Ok key, w);
     get_client := fun w => (handle, w);
     check_rate_limit := limiter;
     create_tweet := fun _ _ _ _ w => (answer, w);
     _get_error_with_username :=
       fun msg => "Error for Twitter user @alice: " ++ msg |}.

(** The same collaborators with another limiter. *)
Definition with_limiter (limit : Z -> Z -> nat -> result (bool * pyval) * nat)
    (t : Collaborators nat unit) : Collaborators nat unit :=
  {| use_key := use_key t;
     get_client := get_client t;
     check_rate_limit := limit;
     create_tweet := create_tweet t;
     _get_error_with_username := _get_error_with_username t |}.

(** A limiter that fails. *)
Definition failing_limiter (e : pyexn) (max_requests interval : Z) (count : nat)
  : result (bool * pyval) * nat :=
  (Raise e, count).

Definition start (count : nat) : state nat :=
  {| self := TwitterReplyTweet_new; world := count |}.

Definition posted (id : string) : pyval :=
  PyDict [("data", PyDict [("id", PyStr id); ("text", PyStr "hello")])].

(** A text of 281 characters. *)
Definition long_text : string :=
  string_of_list_ascii (repeat "a"%char 281).

End Sample.


(** * Properties *)

(** ** The values at work *)

Example in_mapping :
  py_contains "data" (Sample.posted "123") = Ok true
  /\ py_contains "errors" (Sample.posted "123") = Ok false.
Proof. split; reflexivity. Qed.

Example in_sequence :
  py_contains "data" (PyList [PyInt 1; PyStr "data"]) = Ok true
  /\ py_contains "data" (PyList [PyStr "dat"; PyNone]) = Ok false.
Proof. split; reflexivity. Qed.

Example in_string :
  py_contains "id" (PyStr "valid") = Ok true
  /\ py_contains "id" (PyStr "vowel") = Ok false.
Proof. split; reflexivity. Qed.

Example in_None :
  py_contains "id" PyNone
  = Raise (TypeError "argument of type 'NoneType' is not iterable").
Proof. reflexivity. Qed.

Example subscript_of_string :
  py_getitem (PyStr "valid") "id"
  = Raise (TypeError "string indices must be integers, not 'str'").
Proof. reflexivity. Qed.

Example format_values :
  py_str Sample.repr (PyStr "123") = "123"
  /\ py_str Sample.repr (PyInt 123) = "123"
  /\ py_str Sample.repr (PyInt (-5)) = "-5"
  /\ py_str Sample.repr PyNone = "None"
  /\ py_str Sample.repr (Sample.posted "12")
     = "{'data': {'id': '12', 'text': 'hello'}}".
Proof. repeat split; reflexivity. Qed.

Example text_of_280_is_valid :
  TwitterReplyTweetInput_init
    {| raw_tweet_id := Some "77";
       raw_text := Some (string_of_list_ascii (repeat "a"%char 280)) |}
  = Valid {| tweet_id := "77";
             text := string_of_list_ascii (repeat "a"%char 280) |}.
Proof. reflexivity. Qed.

Example text_is_required :
  TwitterReplyTweetInput_init {| raw_tweet_id := Some "77"; raw_text := None |}
  = ValidationError [("text", Missing)].
Proof. reflexivity. Qed.

(** ** [_run] at work *)

(** A first reply under session authentication: the limiter counts it. *)
Example reply_is_posted :
  _run Sample.repr (Sample.twitter false (Ok (Some tt)) (Ok (Sample.posted "123")))
       "77" "hello" (Sample.start 0)
  = (Ok "Reply posted successfully! Reply Tweet ID: 123", Sample.start 1,
     [EvUseKey; EvCheckRateLimit 48 1440; EvGetClient; EvUseKey;
      EvCreateTweet "hello" false "77"]).
Proof. reflexivity. Qed.

(** Key-based authentication with the window already full: the limiter is
    not asked and the reply goes out. *)
Example key_based_reply_ignores_the_limiter :
  _run Sample.repr (Sample.twitter true (Ok (Some tt)) (Ok (Sample.posted "123")))
       "77" "hello" (Sample.start 48)
  = (Ok "Reply posted successfully! Reply Tweet ID: 123", Sample.start 48,
     [EvUseKey; EvGetClient; EvUseKey; EvCreateTweet "hello" true "77"]).
Proof. reflexivity. Qed.

(** An answer without [data]. *)
Example answer_without_data :
  outcome (_run Sample.repr
             (Sample.twitter true (Ok (Some tt)) (Ok (PyDict [("errors", PyList [])])))
             "77" "hello" (Sample.start 0))
  = Ok "Error for Twitter user @alice: Failed to post reply tweet.".
Proof. reflexivity. Qed.

(** ** Strings *)

Lemma append_assoc (a b c : string) : (a ++ b) ++ c = a ++ b ++ c.
Proof. induction a as [|x a IH]; cbn; [reflexivity | now rewrite IH]. Qed.

Lemma append_nil_r (a : string) : a ++ "" = a.
Proof. induction a as [|x a IH]; cbn; [reflexivity | now rewrite IH]. Qed.

Lemma Embeds_refl (s : string) : Embeds s s.
Proof. exists "", "". cbn. now rewrite append_nil_r. Qed.

Lemma Embeds_suffix (p s : string) : Embeds s (p ++ s).
Proof. exists p, "". now rewrite append_nil_r. Qed.

Lemma Embeds_trans (s t u : string) : Embeds s t -> Embeds t u -> Embeds s u.
Proof.
  intros (a & b & ->) (c & d & ->).
  exists (c ++ a), (b ++ d).
  now rewrite !append_assoc.
Qed.

(** ** Responses *)

Lemma inspection_error_is_Exception (response : pyval) (e : pyexn) :
  inspection_error response = Some e -> exn_is_Exception e = true.
Proof.
  unfold inspection_error.
  destruct response as [ | b | z | s | items | entries]; cbn;
    try (intros [= <-]; reflexivity).
  - destruct (is_substring "data" s); [intros [= <-]; reflexivity | discriminate].
  - destruct (existsb _ items); [intros [= <-]; reflexivity | discriminate].
  - destruct (dict_get "data" entries) as [data|]; [|discriminate].
    destruct data as [ | b | z | s | items | inner]; cbn;
      try (intros [= <-]; reflexivity).
    + destruct (is_substring "id" s); [intros [= <-]; reflexivity | discriminate].
    + destruct (existsb _ items); [intros [= <-]; reflexivity | discriminate].
    + destruct (dict_get "id" inner); discriminate.
Qed.

Lemma response_shaped_no_error (response : pyval) :
  response_shaped response = true -> inspection_error response = None.
Proof.
  unfold response_shaped, inspection_error.
  destruct response as [ | b | z | s | items | entries]; try discriminate.
  cbn. destruct (dict_get "data" entries) as [data|]; [|reflexivity].
  destruct data as [ | b | z | s | items | inner]; try discriminate.
  intros _. cbn. now destruct (dict_get "id" inner).
Qed.

Lemma nested_identifier_shaped (response id : pyval) :
  nested_identifier response = Some id -> response_shaped response = true.
Proof.
  unfold nested_identifier, response_shaped.
  destruct response as [ | b | z | s | items | entries]; try discriminate.
  destruct (dict_get "data" entries) as [data|]; [|discriminate].
  now destruct data.
Qed.

(** ** Statements *)

Section Properties.

Variables W Client : Type.
Variable py_repr : pyval -> string.
Variable twitter : Collaborators W Client.

Local Notation "'helper'" := (_get_error_with_username twitter).
Local Notation "'show'" := (py_str py_repr).
Local Notation "'run'" := (_run py_repr twitter).
Local Notation "'gate'" := (rate_limit_gate py_repr twitter).

Lemma bind_assoc A B C (m : M W A) (f : A -> M W B) (g : B -> M W C) st :
  bind (bind m f) g st = bind m (fun x => bind (f x) g) st.
Proof.
  unfold bind.
  destruct (m st) as [[[a|v|e] st1] t1]; try reflexivity.
  destruct (f a st1) as [[[b|v|e] st2] t2]; try reflexivity.
  destruct (g b st2) as [[c st3] t3].
  now rewrite app_assoc.
Qed.

Lemma bind_ext A B (m : M W A) (f g : A -> M W B) st :
  (forall a st1, f a st1 = g a st1) -> bind m f st = bind m g st.
Proof.
  intros H. unfold bind.
  destruct (m st) as [[[a|v|e] st1] t1]; try reflexivity.
  now rewrite H.
Qed.

Lemma def_try_except_ext (m m' : M W Empty_set) h st :
  m st = m' st -> def (try_except m h) st = def (try_except m' h) st.
Proof. unfold def, try_except. now intros ->. Qed.

(** [_run] is its four blocks under the [try]. *)
Lemma _run_blocks (tweet_id text : string) (st : state W) :
  _run py_repr twitter tweet_id text st
  = def (try_except
           (rate_limit_gate py_repr twitter ;; post_reply py_repr twitter tweet_id text)
           (on_exception twitter)) st.
Proof.
  unfold _run. apply def_try_except_ext.
  unfold rate_limit_gate. rewrite bind_assoc.
  apply bind_ext; intros k st1.
  apply bind_ext; intros [] st2.
  unfold post_reply, request_reply. rewrite bind_assoc.
  apply bind_ext; intros [c|] st3; [|reflexivity].
  now rewrite bind_assoc.
Qed.

(** Step 1 as a decision tree over what the collaborators answer. *)
Lemma rate_limit_gate_cases (st : state W) :
  rate_limit_gate py_repr twitter st =
  match use_key twitter (world st) with
  | (Raise e, w1) => (Raised e, with_world st w1, [EvUseKey])
  | (Ok true, w1) => (Normal tt, with_world st w1, [EvUseKey])
  | (Ok false, w1) =>
      match check_rate_limit twitter 48 1440 w1 with
      | (Raise e, w2) =>
          (Raised e, with_world st w2, [EvUseKey; EvCheckRateLimit 48 1440])
      | (Ok (true, error), w2) =>
          (Returned (helper ("Error replying to tweet: " ++ show error)),
           with_world st w2, [EvUseKey; EvCheckRateLimit 48 1440])
      | (Ok (false, _), w2) =>
          (Normal tt, with_world st w2, [EvUseKey; EvCheckRateLimit 48 1440])
      end
  end.
Proof.
  unfold rate_limit_gate, bind, when, twitter_use_key, self_check_rate_limit, call.
  destruct (use_key twitter (world st)) as [[[|]|e] w1]; cbn; try reflexivity.
  destruct (check_rate_limit twitter 48 1440 w1) as [[[[|] error]|e] w2];
    reflexivity.
Qed.

(** Steps 2 and 3 likewise. *)
Lemma request_reply_cases (tweet_id text : string) (st : state W) :
  request_reply twitter tweet_id text st =
  match get_client twitter (world st) with
  | (Raise e, w1) => (Raised e, with_world st w1, [EvGetClient])
  | (Ok None, w1) =>
      (Returned (helper "Failed to get Twitter client. Please check your authentication."),
       with_world st w1, [EvGetClient])
  | (Ok (Some client), w1) =>
      match use_key twitter w1 with
      | (Raise e, w2) => (Raised e, with_world st w2, [EvGetClient; EvUseKey])
      | (Ok user_auth, w2) =>
          match create_tweet twitter client text user_auth tweet_id w2 with
          | (Raise e, w3) =>
              (Raised e, with_world st w3,
               [EvGetClient; EvUseKey; EvCreateTweet text user_auth tweet_id])
          | (Ok response, w3) =>
              (Normal response, with_world st w3,
               [EvGetClient; EvUseKey; EvCreateTweet text user_auth tweet_id])
          end
      end
  end.
Proof.
  unfold request_reply, bind, twitter_get_client, twitter_use_key,
    client_create_tweet, call.
  destruct (get_client twitter (world st)) as [[[client|]|e] w1]; cbn;
    try reflexivity.
  destruct (use_key twitter w1) as [[user_auth|e] w2]; cbn; try reflexivity.
  destruct (create_tweet twitter client text user_auth tweet_id w2)
    as [[response|e] w3]; reflexivity.
Qed.

(** Step 4: no call, no change of state, and one of three endings. *)
Lemma interpret_response_cases (response : pyval) (st : state W) :
  interpret_response py_repr twitter response st =
  (match nested_identifier response with
   | Some id => Returned ("Reply posted successfully! Reply Tweet ID: " ++ show id)
   | None =>
       match inspection_error response with
       | Some e => Raised e
       | None => Returned (helper "Failed to post reply tweet.")
       end
   end, st, []).
Proof.
  unfold interpret_response, nested_identifier, inspection_error, bind, when.
  destruct response as [ | b | z | s | items | entries]; cbn; try reflexivity.
  - now destruct (is_substring "data" s).
  - now destruct (existsb _ items).
  - destruct (dict_get "data" entries) as [data|]; [|reflexivity].
    destruct data as [ | b | z | s | items | inner]; cbn; try reflexivity.
    + now destruct (is_substring "id" s).
    + now destruct (existsb _ items).
    + now destruct (dict_get "id" inner).
Qed.

(** [_run] as a decision tree over its blocks; [caught] is what lines 70-71
    make of an exception that leaves the [try] body. *)
Lemma _run_cases (tweet_id text : string) (st : state W) :
  _run py_repr twitter tweet_id text st =
  let caught e st1 t1 :=
    if exn_is_Exception e
    then (Ok (helper ("Error posting reply tweet: " ++ exn_str e)), st1, t1)
    else (Raise e, st1, t1) in
  match rate_limit_gate py_repr twitter st with
  | (Normal _, st1, t1) =>
      match request_reply twitter tweet_id text st1 with
      | (Normal response, st2, t2) =>
          match nested_identifier response with
          | Some id =>
              (Ok ("Reply posted successfully! Reply Tweet ID: " ++ show id),
               st2, (t1 ++ t2)%list)
          | None =>
              match inspection_error response with
              | Some e =>
                  (Ok (helper ("Error posting reply tweet: " ++ exn_str e)),
                   st2, (t1 ++ t2)%list)
              | None =>
                  (Ok (helper "Failed to post reply tweet."), st2, (t1 ++ t2)%list)
              end
          end
      | (Returned v, st2, t2) => (Ok v, st2, (t1 ++ t2)%list)
      | (Raised e, st2, t2) => caught e st2 (t1 ++ t2)%list
      end
  | (Returned v, st1, t1) => (Ok v, st1, t1)
  | (Raised e, st1, t1) => caught e st1 t1
  end.
Proof.
  rewrite _run_blocks.
  unfold def, try_except, bind, post_reply, on_exception, return_,
    self_get_error_with_username.
  destruct (rate_limit_gate py_repr twitter st) as [[[[]|v|e] st1] t1]; cbn.
  - unfold bind.
    destruct (request_reply twitter tweet_id text st1) as [[[r|v|e] st2] t2]; cbn.
    + rewrite interpret_response_cases.
      destruct (nested_identifier r) as [id|]; cbn; [now rewrite app_nil_r|].
      destruct (inspection_error r) as [e|] eqn:E; cbn; [|now rewrite app_nil_r].
      rewrite (inspection_error_is_Exception _ E).
      now rewrite !app_nil_r.
    + reflexivity.
    + destruct (exn_is_Exception e); [now rewrite app_nil_r | reflexivity].
  - reflexivity.
  - destruct (exn_is_Exception e); [now rewrite app_nil_r | reflexivity].
Qed.

(** Every path of [_run], by case analysis on what the collaborators
    answer. *)
Ltac run_tree :=
  rewrite _run_cases; cbv zeta; rewrite rate_limit_gate_cases;
  repeat (cbv beta iota; simpl world;
          match goal with
          | |- context [use_key ?t ?w] =>
              destruct (use_key t w) as [[[|]|?exn] ?w'] eqn:?
          | |- context [check_rate_limit ?t ?a ?b ?w] =>
              destruct (check_rate_limit t a b w) as [[[[|] ?error]|?exn] ?w'] eqn:?
          | |- context [request_reply _ _ _ _] => rewrite request_reply_cases
          | |- context [get_client ?t ?w] =>
              destruct (get_client t w) as [[[?client|]|?exn] ?w'] eqn:?
          | |- context [create_tweet ?t ?c ?x ?u ?i ?w] =>
              destruct (create_tweet t c x u i w) as [[?response|?exn] ?w'] eqn:?
          | |- context [match nested_identifier ?r with _ => _ end] =>
              destruct (nested_identifier r) as [?id|] eqn:?
          | |- context [match inspection_error ?r with _ => _ end] =>
              destruct (inspection_error r) as [?exn|] eqn:?
          | |- context [if exn_is_Exception ?e then _ else _] =>
              destruct (exn_is_Exception e) eqn:?
          end).

Ltac trace_facts :=
  cbn [calls outcome final fst snd app In filter length requests with_world self
       world is_check_rate_limit is_create_tweet is_get_client];
  repeat split; intros;
  repeat match goal with
         | H : _ \/ _ |- _ => destruct H
         | H : False |- _ => destruct H
         | H : _ /\ _ |- _ => destruct H
         end;
  try congruence; try discriminate; auto with arith.

(** C1: for every state of the collaborators (every prior call volume,
    every state of the limiter), the rate-limit check is made, with
    [max_requests = 48] and [interval = 1440], if and only if the flag
    [use_key] read on line 45 is false; no other check is ever made, and
    under key-based authentication none is made at all. *)
Theorem rate_limit_checked_iff_not_key_based (tweet_id text : string) (st : state W) :
  (In (EvCheckRateLimit 48 1440) (calls (run tweet_id text st))
   <-> fst (use_key twitter (world st)) = Ok false)
  /\ (forall max_requests interval,
        In (EvCheckRateLimit max_requests interval) (calls (run tweet_id text st)) ->
        max_requests = 48%Z /\ interval = 1440%Z)
  /\ (fst (use_key twitter (world st)) = Ok true ->
      filter is_check_rate_limit (calls (run tweet_id text st)) = []).
Proof.
  run_tree; trace_facts.
Qed.

(** Step 1 sends no request and leaves the tool as it was. *)
Lemma rate_limit_gate_frame (st st1 : state W) c t1 :
  gate st = (c, st1, t1) ->
  self st1 = self st /\ requests t1 = 0 /\ filter is_get_client t1 = [].
Proof.
  rewrite rate_limit_gate_cases.
  destruct (use_key twitter (world st)) as [[[|]|e] w1].
  2: destruct (check_rate_limit twitter 48 1440 w1) as [[[[|] error]|e] w2].
  all: intros [= <- <- <-]; trace_facts.
Qed.

Lemma run_when_rate_limited (tweet_id text : string) (st : state W) w1 w2 error :
  use_key twitter (world st) = (Ok false, w1) ->
  check_rate_limit twitter 48 1440 w1 = (Ok (true, error), w2) ->
  run tweet_id text st
  = (Ok (helper ("Error replying to tweet: " ++ show error)),
     with_world st w2, [EvUseKey; EvCheckRateLimit 48 1440]).
Proof.
  intros Hkey Hlimit.
  rewrite _run_cases; cbv zeta.
  now rewrite rate_limit_gate_cases, Hkey, Hlimit.
Qed.

Lemma run_when_no_client (tweet_id text : string) (st st1 : state W) t1 w2 :
  gate st = (Normal tt, st1, t1) ->
  get_client twitter (world st1) = (Ok None, w2) ->
  run tweet_id text st
  = (Ok (helper "Failed to get Twitter client. Please check your authentication."),
     with_world st1 w2, (t1 ++ [EvGetClient])%list).
Proof.
  intros Hgate Hclient.
  rewrite _run_cases; cbv zeta.
  now rewrite Hgate, request_reply_cases, Hclient.
Qed.

Lemma requests_app (t1 t2 : list event) :
  requests (t1 ++ t2) = requests t1 + requests t2.
Proof. unfold requests. now rewrite filter_app, length_app. Qed.

Lemma get_error_with_username_names (user error_msg : string) :
  Embeds user (get_error_with_username (Some user) error_msg).
Proof. now exists "Error for Twitter user @", (": " ++ error_msg). Qed.

Lemma get_error_with_username_keeps (username : option string) (error_msg : string) :
  Embeds error_msg (get_error_with_username username error_msg).
Proof.
  destruct username as [user|]; [|apply Embeds_refl].
  exists ("Error for Twitter user @" ++ user ++ ": "), "".
  cbn [get_error_with_username].
  now rewrite append_nil_r, !append_assoc.
Qed.

(** C2: under non-key authentication, when the limiter (asked for 48
    requests per 1440 minutes) reports the caller limited with message
    [error], [_run] returns what the helper makes of
    "Error replying to tweet: <error>", and the only calls made are the read
    of the flag and the check: no client is obtained, no reply is created.
    With the helper the specification describes, acting for the user
    [username], the returned string contains the limiter's message and,
    where there is one, the user's name. *)
Theorem rate_limited_call_returns_error
    (tweet_id text : string) (st : state W) (w1 w2 : W) (error : pyval) :
  use_key twitter (world st) = (Ok false, w1) ->
  check_rate_limit twitter 48 1440 w1 = (Ok (true, error), w2) ->
  run tweet_id text st
  = (Ok (helper ("Error replying to tweet: " ++ show error)),
     with_world st w2, [EvUseKey; EvCheckRateLimit 48 1440])
  /\ filter is_get_client (calls (run tweet_id text st)) = []
  /\ requests (calls (run tweet_id text st)) = 0
  /\ (forall username,
        (forall msg, helper msg = get_error_with_username username msg) ->
        outcome (run tweet_id text st)
        = Ok (get_error_with_username username
                ("Error replying to tweet: " ++ show error))
        /\ Embeds (show error)
             (get_error_with_username username
                ("Error replying to tweet: " ++ show error))
        /\ (forall caller, username = Some caller ->
              Embeds caller
                (get_error_with_username username
                   ("Error replying to tweet: " ++ show error)))).
Proof.
  intros Hkey Hlimit.
  rewrite (run_when_rate_limited tweet_id text st Hkey Hlimit).
  split; [reflexivity|]. split; [reflexivity|]. split; [reflexivity|].
  intros username Hhelper. split; [|split].
  - cbn [outcome fst]. now rewrite Hhelper.
  - eapply Embeds_trans;
      [apply Embeds_suffix | apply get_error_with_username_keeps].
  - intros caller ->. apply get_error_with_username_names.
Qed.

(** C5: when the call reaches step 2 and [get_client] hands back no
    handle, [_run] returns the helper's rendering of "Failed to get Twitter
    client. Please check your authentication." and makes no call after
    [get_client]: no reply-creation request is sent. *)
Theorem missing_client_returns_error
    (tweet_id text : string) (st st1 : state W) (t1 : list event) (w2 : W) :
  gate st = (Normal tt, st1, t1) ->
  get_client twitter (world st1) = (Ok None, w2) ->
  run tweet_id text st
  = (Ok (helper "Failed to get Twitter client. Please check your authentication."),
     with_world st1 w2, (t1 ++ [EvGetClient])%list)
  /\ requests (calls (run tweet_id text st)) = 0.
Proof.
  intros Hgate Hclient.
  rewrite (run_when_no_client tweet_id text st Hgate Hclient).
  split; [reflexivity|].
  cbn [calls snd]. rewrite requests_app.
  destruct (rate_limit_gate_frame st Hgate) as (_ & -> & _).
  reflexivity.
Qed.

(** C9: [_run] leaves every field of the tool ([name], [description],
    [args_schema]) as it found it, whatever the collaborators do; it sends at
    most one reply-creation request, and none when the limiter stops the call
    or when there is no client. *)
Theorem run_frame (tweet_id text : string) (st : state W) :
  self (final (run tweet_id text st)) = self st
  /\ requests (calls (run tweet_id text st)) <= 1
  /\ (forall w1 w2 error,
        use_key twitter (world st) = (Ok false, w1) ->
        check_rate_limit twitter 48 1440 w1 = (Ok (true, error), w2) ->
        requests (calls (run tweet_id text st)) = 0)
  /\ (forall st1 t1 w2,
        gate st = (Normal tt, st1, t1) ->
        get_client twitter (world st1) = (Ok None, w2) ->
        requests (calls (run tweet_id text st)) = 0).
Proof.
  split; [|split; [|split]].
  - run_tree; trace_facts.
  - run_tree; trace_facts.
  - intros w1 w2 error Hkey Hlimit.
    now rewrite (run_when_rate_limited tweet_id text st Hkey Hlimit).
  - intros st1 t1 w2 Hgate Hclient.
    rewrite (run_when_no_client tweet_id text st Hgate Hclient).
    cbn [calls snd]. rewrite requests_app.
    destruct (rate_limit_gate_frame st Hgate) as (_ & -> & _).
    reflexivity.
Qed.

(** C7: for the same arguments, collaborators and starting state, awaiting
    [_arun] gives what [_run] gives: the same string (or the same exception),
    the same final state and the same calls. *)
Theorem arun_is_run (tweet_id text : string) (st : state W) :
  await (_arun py_repr twitter tweet_id text) st = run tweet_id text st.
Proof. reflexivity. Qed.

(** Steps 1 to 3 in sequence end normally exactly when both parts do. *)
Lemma gate_then_request (tweet_id text : string) (st st2 : state W) response t :
  (gate ;; request_reply twitter tweet_id text) st = (Normal response, st2, t) ->
  exists st1 t1 t2,
    gate st = (Normal tt, st1, t1)
    /\ request_reply twitter tweet_id text st1 = (Normal response, st2, t2)
    /\ t = (t1 ++ t2)%list.
Proof.
  unfold bind.
  destruct (gate st) as [[[[]|v|e] st1] t1]; try discriminate.
  destruct (request_reply twitter tweet_id text st1) as [[c st2'] t2] eqn:Hr.
  intros [= -> -> <-]. now exists st1, t1, t2.
Qed.

Lemma run_when_answered (tweet_id text : string) (st st2 : state W) response t :
  (gate ;; request_reply twitter tweet_id text) st = (Normal response, st2, t) ->
  run tweet_id text st =
  (Ok match nested_identifier response with
      | Some id => "Reply posted successfully! Reply Tweet ID: " ++ show id
      | None =>
          match inspection_error response with
          | Some e => helper ("Error posting reply tweet: " ++ exn_str e)
          | None => helper "Failed to post reply tweet."
          end
      end, st2, t).
Proof.
  intros H. destruct (gate_then_request _ _ _ H) as (st1 & t1 & t2 & Hg & Hr & ->).
  rewrite _run_cases; cbv zeta. rewrite Hg, Hr.
  destruct (nested_identifier response); [reflexivity|].
  now destruct (inspection_error response).
Qed.

Lemma run_when_raised (tweet_id text : string) (st st1 : state W) e t1 :
  (gate ;; post_reply py_repr twitter tweet_id text) st = (Raised e, st1, t1) ->
  run tweet_id text st
  = (if exn_is_Exception e
     then Ok (helper ("Error posting reply tweet: " ++ exn_str e))
     else Raise e, st1, t1).
Proof.
  intros H. rewrite _run_blocks.
  unfold def, try_except. rewrite H.
  destruct (exn_is_Exception e); [|reflexivity].
  cbn. now rewrite app_nil_r.
Qed.

Lemma nested_identifier_no_error (response id : pyval) :
  nested_identifier response = Some id -> inspection_error response = None.
Proof.
  intros H. apply response_shaped_no_error.
  eapply nested_identifier_shaped; eassumption.
Qed.

Lemma step_1_raises (st st1 : state W) e t1 :
  raises_in_step_1 twitter st e st1 t1 -> gate st = (Raised e, st1, t1).
Proof.
  rewrite rate_limit_gate_cases.
  intros [e' w1 Hkey | e' w1 w2 Hkey Hcheck].
  - now rewrite Hkey.
  - now rewrite Hkey, Hcheck.
Qed.

Lemma steps_2_to_4_raise (tweet_id text : string) (st st1 : state W) e t1 :
  raises_in_steps_2_to_4 twitter tweet_id text st e st1 t1 ->
  post_reply py_repr twitter tweet_id text st = (Raised e, st1, t1).
Proof.
  unfold post_reply, bind. rewrite request_reply_cases.
  intros [e' w1 Hc | e' c w1 w2 Hc Hk | e' c u w1 w2 w3 Hc Hk Hp
         | e' c u r w1 w2 w3 Hc Hk Hp Hi].
  - now rewrite Hc.
  - now rewrite Hc, Hk.
  - now rewrite Hc, Hk, Hp.
  - rewrite Hc, Hk, Hp, interpret_response_cases, Hi.
    destruct (nested_identifier r) as [id|] eqn:Hid; [|reflexivity].
    now rewrite (nested_identifier_no_error _ Hid) in Hi.
Qed.

(** The two predicates miss no exception. *)
Lemma step_1_raised (st st1 : state W) e t1 :
  gate st = (Raised e, st1, t1) -> raises_in_step_1 twitter st e st1 t1.
Proof.
  rewrite rate_limit_gate_cases.
  destruct (use_key twitter (world st)) as [[[|]|e'] w1] eqn:Hkey.
  - discriminate.
  - destruct (check_rate_limit twitter 48 1440 w1) as [[[[|] error]|e''] w2] eqn:Hc;
      try discriminate.
    intros [= <- <- <-]. eapply check_raises; eassumption.
  - intros [= <- <- <-]. now apply flag_read_raises.
Qed.

Lemma steps_2_to_4_raised (tweet_id text : string) (st st1 : state W) e t1 :
  post_reply py_repr twitter tweet_id text st = (Raised e, st1, t1) ->
  raises_in_steps_2_to_4 twitter tweet_id text st e st1 t1.
Proof.
  unfold post_reply, bind. rewrite request_reply_cases.
  destruct (get_client twitter (world st)) as [[[c|]|e'] w1] eqn:Hc.
  - destruct (use_key twitter w1) as [[u|e'] w2] eqn:Hk.
    + destruct (create_tweet twitter c text u tweet_id w2) as [[r|e'] w3] eqn:Hp.
      * rewrite interpret_response_cases.
        destruct (nested_identifier r) as [id|]; [discriminate|].
        destruct (inspection_error r) as [e'|] eqn:Hi; [|discriminate].
        intros [= <- <- <-]. eapply inspection_raises; eassumption.
      * intros [= <- <- <-]. eapply create_tweet_raises; eassumption.
    + intros [= <- <- <-]. eapply argument_raises; eassumption.
  - discriminate.
  - intros [= <- <- <-]. now apply get_client_raises.
Qed.

(** [_run] raises only what [except Exception] lets through. *)
Lemma run_raises_only_non_Exception (tweet_id text : string) (st : state W) e :
  outcome (run tweet_id text st) = Raise e -> exn_is_Exception e = false.
Proof.
  run_tree; cbn [outcome fst]; congruence.
Qed.

(** C3, as amended: an exception [e] raised in steps 2 to 4 (by
    [get_client], by the second read of [use_key], by [create_tweet] or by
    the inspection of the response) after step 1 let the call through is
    caught when its class derives from [Exception]: [_run] then returns the
    helper's rendering of "Error posting reply tweet: <str(e)>", which
    contains [str(e)] whenever the helper keeps the message it is given.  An
    exception whose class does not derive from [Exception] is raised by
    [_run] itself. *)
Theorem exception_in_steps_2_to_4
    (tweet_id text : string) (st st1 st2 : state W) (t1 t2 : list event) (e : pyexn) :
  (forall msg, Embeds msg (helper msg)) ->
  gate st = (Normal tt, st1, t1) ->
  raises_in_steps_2_to_4 twitter tweet_id text st1 e st2 t2 ->
  run tweet_id text st
  = (if exn_is_Exception e
     then Ok (helper ("Error posting reply tweet: " ++ exn_str e))
     else Raise e, st2, (t1 ++ t2)%list)
  /\ Embeds (exn_str e) (helper ("Error posting reply tweet: " ++ exn_str e)).
Proof.
  intros Hmsg Hgate Hpost. split.
  - apply run_when_raised. unfold bind.
    now rewrite Hgate, (steps_2_to_4_raise Hpost).
  - eapply Embeds_trans; [apply Embeds_suffix | apply Hmsg].
Qed.

(** C10, as amended: an exception [e] raised in step 1 (by the read of
    [use_key] on line 45 or by [check_rate_limit]) is inside the [try] too:
    when its class derives from [Exception], [_run] returns the helper's
    rendering of "Error posting reply tweet: <str(e)>", which contains
    [str(e)] whenever the helper keeps its message; otherwise [_run] raises
    it.  Whatever the collaborators do, the only exceptions [_run] raises are
    those whose class does not derive from [Exception]. *)
Theorem exception_in_step_1
    (tweet_id text : string) (st st1 : state W) (t1 : list event) (e : pyexn) :
  (forall msg, Embeds msg (helper msg)) ->
  raises_in_step_1 twitter st e st1 t1 ->
  run tweet_id text st
  = (if exn_is_Exception e
     then Ok (helper ("Error posting reply tweet: " ++ exn_str e))
     else Raise e, st1, t1)
  /\ Embeds (exn_str e) (helper ("Error posting reply tweet: " ++ exn_str e))
  /\ (forall tweet_id' text' (st' : state W) e',
        outcome (run tweet_id' text' st') = Raise e' ->
        exn_is_Exception e' = false).
Proof.
  intros Hmsg Hgate. split; [|split].
  - apply run_when_raised. unfold bind. now rewrite (step_1_raises Hgate).
  - eapply Embeds_trans; [apply Embeds_suffix | apply Hmsg].
  - intros. eapply run_raises_only_non_Exception; eassumption.
Qed.

(** C4, as amended: when steps 1 to 3 end with the platform's [response],
    [_run] returns exactly "Reply posted successfully! Reply Tweet ID: <id>"
    if the response has an identifier [id] at [data.id].  If it has none and
    the inspection of lines 65-66 does not raise, as for every response of
    the documented shape (a mapping whose [data] entry, when present, is a
    mapping), [_run] returns the helper's rendering of "Failed to post reply
    tweet.".  If the inspection raises [e], [_run] returns the rendering of
    "Error posting reply tweet: <str(e)>" instead; that is the case of every
    mapping whose [data] entry is [None], a boolean or an integer, where [e]
    is the [TypeError] of the test ["id" in response["data"]]. *)
Theorem response_interpretation
    (tweet_id text : string) (st st2 : state W) (t : list event) (response : pyval) :
  (gate ;; request_reply twitter tweet_id text) st = (Normal response, st2, t) ->
  (forall id, nested_identifier response = Some id ->
     outcome (run tweet_id text st)
     = Ok ("Reply posted successfully! Reply Tweet ID: " ++ show id))
  /\ (nested_identifier response = None -> response_shaped response = true ->
      outcome (run tweet_id text st) = Ok (helper "Failed to post reply tweet."))
  /\ (nested_identifier response = None -> inspection_error response = None ->
      outcome (run tweet_id text st) = Ok (helper "Failed to post reply tweet."))
  /\ (forall e, inspection_error response = Some e ->
        nested_identifier response = None
        /\ exn_is_Exception e = true
        /\ outcome (run tweet_id text st)
           = Ok (helper ("Error posting reply tweet: " ++ exn_str e)))
  /\ (forall entries data,
        response = PyDict entries ->
        dict_get "data" entries = Some data ->
        match data with
        | PyNone | PyBool _ | PyInt _ => True
        | _ => False
        end ->
        outcome (run tweet_id text st)
        = Ok (helper ("Error posting reply tweet: argument of type '"
                      ++ py_type_name data ++ "' is not iterable"))).
Proof.
  intros H. rewrite (run_when_answered _ _ _ H). cbn [outcome fst].
  split; [|split; [|split; [|split]]].
  - now intros id ->.
  - intros -> Hshape. now rewrite (response_shaped_no_error _ Hshape).
  - now intros -> ->.
  - intros e He.
    assert (Hnone : nested_identifier response = None).
    { destruct (nested_identifier response) as [id|] eqn:Hid; [|reflexivity].
      rewrite (nested_identifier_no_error _ Hid) in He. discriminate. }
    rewrite Hnone, He. repeat split.
    eapply inspection_error_is_Exception; eassumption.
  - intros entries data -> Hdata Hkind.
    unfold nested_identifier, inspection_error. cbn. rewrite Hdata.
    destruct data; cbn; try reflexivity; contradiction.
Qed.

(** ** Validation *)

Lemma long_text_errors (id : option string) (text : string) :
  280 < String.length text ->
  TwitterReplyTweetInput_init {| raw_tweet_id := id; raw_text := Some text |}
  = ValidationError (validate_tweet_id id ++ [("text", StringTooLong 280)])%list.
Proof.
  intros Hlen. unfold TwitterReplyTweetInput_init, validate_text. cbn.
  apply Nat.leb_gt in Hlen. rewrite Hlen.
  now destruct id.
Qed.

(** C6: a text of more than 280 characters never makes a
    [TwitterReplyTweetInput]: construction ends in a [ValidationError] that
    names the field, and the entry point, which validates first, leaves with
    that error without calling [_run]: no call is made and the state is
    untouched. *)
Theorem long_text_fails_validation
    (id : option string) (text : string) (st : state W) :
  280 < String.length text ->
  args_schema (self st) = TwitterReplyTweetInput_init ->
  (exists errors,
     TwitterReplyTweetInput_init {| raw_tweet_id := id; raw_text := Some text |}
     = ValidationError errors
     /\ In ("text", StringTooLong 280) errors)
  /\ (exists errors,
        execute py_repr twitter {| raw_tweet_id := id; raw_text := Some text |} st
        = (Rejected errors, st, [])).
Proof.
  intros Hlen Hschema. split.
  - rewrite long_text_errors by assumption. eexists; split; [reflexivity|].
    apply in_or_app. right. now left.
  - unfold execute. rewrite Hschema, long_text_errors by assumption. now eexists.
Qed.

(** C8, as amended: of [tweet_id] the schema asks only that it be there.
    With a text of at most 280 characters, every string, the empty one
    included, makes a valid input whose [tweet_id] is that string, and the
    entry point runs [_run] on it, handing the identifier on as it is.  Only
    an absent [tweet_id] is rejected, before the operation runs: no call is
    made and the state is untouched. *)
Theorem tweet_id_needs_only_presence
    (id : option string) (text : string) (st : state W) :
  String.length text <= 280 ->
  args_schema (self st) = TwitterReplyTweetInput_init ->
  match id with
  | Some i =>
      TwitterReplyTweetInput_init {| raw_tweet_id := id; raw_text := Some text |}
      = Valid {| tweet_id := i; text := text |}
      /\ execute py_repr twitter {| raw_tweet_id := id; raw_text := Some text |} st
         = (Executed (outcome (run i text st)),
            final (run i text st), calls (run i text st))
  | None =>
      TwitterReplyTweetInput_init {| raw_tweet_id := id; raw_text := Some text |}
      = ValidationError [("tweet_id", Missing)]
      /\ execute py_repr twitter {| raw_tweet_id := id; raw_text := Some text |} st
         = (Rejected [("tweet_id", Missing)], st, [])
  end.
Proof.
  intros Hlen Hschema. apply Nat.leb_le in Hlen.
  unfold execute. rewrite Hschema.
  unfold TwitterReplyTweetInput_init, validate_text. cbn. rewrite Hlen.
  destruct id as [i|]; cbn; [|now split].
  split; [reflexivity|].
  now destruct (run i text st) as [[r st1] t1].
Qed.

(** ** Further properties of [_run] *)

(** X1: when step 1 lets the call through, there is a client and the flag
    can be read again on line 62, the calls of [_run] end with exactly one
    [create_tweet] that carries the text and the identifier [_run] was given
    and the flag as just read; nothing is called after it, and the
    collaborators are left as [create_tweet] leaves them, whether it answers
    or raises. *)
Theorem request_is_built_from_the_arguments
    (tweet_id text : string) (st st1 : state W) (t1 : list event)
    (client : Client) (user_auth : bool) (w1 w2 : W) :
  gate st = (Normal tt, st1, t1) ->
  get_client twitter (world st1) = (Ok (Some client), w1) ->
  use_key twitter w1 = (Ok user_auth, w2) ->
  calls (run tweet_id text st)
  = (t1 ++ [EvGetClient; EvUseKey; EvCreateTweet text user_auth tweet_id])%list
  /\ final (run tweet_id text st)
     = with_world st1 (snd (create_tweet twitter client text user_auth tweet_id w2)).
Proof.
  intros Hgate Hclient Hkey.
  rewrite _run_cases; cbv zeta.
  rewrite Hgate, request_reply_cases, Hclient, Hkey.
  destruct (create_tweet twitter client text user_auth tweet_id w2) as [[r|e] w3].
  - destruct (nested_identifier r); [now split|].
    destruct (inspection_error r); now split.
  - destruct (exn_is_Exception e); now split.
Qed.

(** X2: whatever the collaborators do, a [create_tweet] call made by
    [_run] carries the text and the tweet identifier [_run] was given,
    unchanged. *)
Theorem requests_carry_text_and_id
    (tweet_id text : string) (st : state W) (x i : string) (u : bool) :
  In (EvCreateTweet x u i) (calls (run tweet_id text st)) ->
  x = text /\ i = tweet_id.
Proof.
  run_tree; trace_facts.
Qed.

(** X3: when the flag [use_key] is stable (every read gives [k] and
    changes nothing), a [create_tweet] call has [user_auth = k], and the
    limiter was consulted in that run exactly when [k] is false. *)
Theorem stable_flag_decides_user_auth
    (k : bool) (tweet_id text : string) (st : state W) (x i : string) (u : bool) :
  (forall w, use_key twitter w = (Ok k, w)) ->
  In (EvCreateTweet x u i) (calls (run tweet_id text st)) ->
  u = k
  /\ (In (EvCheckRateLimit 48 1440) (calls (run tweet_id text st)) <-> k = false).
Proof.
  intros Hflag.
  run_tree;
    repeat match goal with
           | H : use_key twitter ?w = _ |- _ =>
               rewrite Hflag in H; injection H as ? ?; subst
           end;
    trace_facts.
Qed.

(** X4: the calls of [_run] come in one fixed order.  The flag is always
    read first; then, only under non-key authentication, the limiter is
    checked once with (48, 1440); then the client is asked for, once; then
    the flag is read again; then the tweet is created, once.  Every run makes
    a beginning of that sequence. *)
Theorem calls_follow_the_order (tweet_id text : string) (st : state W) :
  hd_error (calls (run tweet_id text st)) = Some EvUseKey
  /\ exists user_auth,
       Prefix (calls (run tweet_id text st))
         [EvUseKey; EvCheckRateLimit 48 1440; EvGetClient; EvUseKey;
          EvCreateTweet text user_auth tweet_id]
       \/ Prefix (calls (run tweet_id text st))
            [EvUseKey; EvGetClient; EvUseKey;
             EvCreateTweet text user_auth tweet_id].
Proof.
  run_tree; cbn [calls snd app hd_error]; (split; [reflexivity|]).
  all: first
    [ exists true; (left + right); eexists; cbn; reflexivity
    | exists false; (left + right); eexists; cbn; reflexivity ].
Qed.

(** X5: every way [_run] can end.  It returns the success string for some
    identifier, or the helper's rendering of one of four messages (the
    limiter's, the missing client, the failed post, a caught exception's), or
    it raises an exception whose class does not derive from [Exception]. *)
Theorem every_outcome_is_classified (tweet_id text : string) (st : state W) :
  match outcome (run tweet_id text st) with
  | Ok s =>
      (exists id, s = "Reply posted successfully! Reply Tweet ID: " ++ show id)
      \/ (exists error, s = helper ("Error replying to tweet: " ++ show error))
      \/ s = helper "Failed to get Twitter client. Please check your authentication."
      \/ s = helper "Failed to post reply tweet."
      \/ (exists e, exn_is_Exception e = true
                    /\ s = helper ("Error posting reply tweet: " ++ exn_str e))
  | Raise e => exn_is_Exception e = false
  end.
Proof.
  run_tree; cbn [outcome fst]; try assumption;
    try (now left; eexists);
    try (now right; left; eexists);
    try (now right; right; left);
    try (now right; right; right; left);
    try (right; right; right; right; eexists; split; [|reflexivity]; try assumption).
  all: eapply inspection_error_is_Exception; eassumption.
Qed.

(** X6: a [create_tweet] call is made exactly when step 1 lets the call
    through, [get_client] hands back a client and the flag can be read
    again. *)
Theorem request_sent_iff (tweet_id text : string) (st : state W) :
  requests (calls (run tweet_id text st)) = 1
  <-> exists st1 t1 client w1 user_auth w2,
        gate st = (Normal tt, st1, t1)
        /\ get_client twitter (world st1) = (Ok (Some client), w1)
        /\ use_key twitter w1 = (Ok user_auth, w2).
Proof.
  split.
  - destruct (gate st) as [[[[]|v|e] st1] t1] eqn:Hgate.
    + destruct (get_client twitter (world st1)) as [[[client|]|e] w1] eqn:Hclient.
      * destruct (use_key twitter w1) as [[u|e] w2] eqn:Hkey.
        -- intros _. now exists st1, t1, client, w1, u, w2.
        -- rewrite _run_cases; cbv zeta.
           rewrite Hgate, request_reply_cases, Hclient, Hkey.
           destruct (rate_limit_gate_frame st Hgate) as (_ & Hreq & _).
           destruct (exn_is_Exception e); cbn [calls snd];
             rewrite requests_app, Hreq; discriminate.
      * rewrite _run_cases; cbv zeta.
        rewrite Hgate, request_reply_cases, Hclient.
        destruct (rate_limit_gate_frame st Hgate) as (_ & Hreq & _).
        cbn [calls snd]; rewrite requests_app, Hreq; discriminate.
      * rewrite _run_cases; cbv zeta.
        rewrite Hgate, request_reply_cases, Hclient.
        destruct (rate_limit_gate_frame st Hgate) as (_ & Hreq & _).
        destruct (exn_is_Exception e); cbn [calls snd];
          rewrite requests_app, Hreq; discriminate.
    + rewrite _run_cases; cbv zeta. rewrite Hgate.
      destruct (rate_limit_gate_frame st Hgate) as (_ & Hreq & _).
      cbn [calls snd]. rewrite Hreq. discriminate.
    + rewrite _run_cases; cbv zeta. rewrite Hgate.
      destruct (rate_limit_gate_frame st Hgate) as (_ & Hreq & _).
      destruct (exn_is_Exception e); cbn [calls snd]; rewrite Hreq; discriminate.
  - intros (st1 & t1 & client & w1 & u & w2 & Hgate & Hclient & Hkey).
    destruct (rate_limit_gate_frame st Hgate) as (_ & Hreq & _).
    rewrite _run_cases; cbv zeta.
    rewrite Hgate, request_reply_cases, Hclient, Hkey.
    destruct (create_tweet twitter client text u tweet_id w2) as [[r|e] w3].
    + destruct (nested_identifier r); [|destruct (inspection_error r)];
        cbn [calls snd]; now rewrite requests_app, Hreq.
    + destruct (exn_is_Exception e); cbn [calls snd];
        now rewrite requests_app, Hreq.
Qed.

Lemma inspection_error_is_TypeError (response : pyval) (e : pyexn) :
  inspection_error response = Some e -> exn_class e = "TypeError".
Proof.
  unfold inspection_error.
  destruct response as [ | b | z | s | items | entries]; cbn;
    try (intros [= <-]; reflexivity).
  - destruct (is_substring "data" s); [intros [= <-]; reflexivity | discriminate].
  - destruct (existsb _ items); [intros [= <-]; reflexivity | discriminate].
  - destruct (dict_get "data" entries) as [data|]; [|discriminate].
    destruct data as [ | b | z | s | items | inner]; cbn;
      try (intros [= <-]; reflexivity).
    + destruct (is_substring "id" s); [intros [= <-]; reflexivity | discriminate].
    + destruct (existsb _ items); [intros [= <-]; reflexivity | discriminate].
    + destruct (dict_get "id" inner); discriminate.
Qed.

(** X7: the only exception lines 65-68 can raise on a response is a
    [TypeError]: each subscript is guarded by a membership test on the same
    key, so no [KeyError] arises.  It arises only on a response without
    identifier at [data.id], with no call made and no state changed. *)
Theorem inspection_raises_only_TypeError
    (response : pyval) (st st1 : state W) (t1 : list event) (e : pyexn) :
  interpret_response py_repr twitter response st = (Raised e, st1, t1) ->
  exn_class e = "TypeError"
  /\ exn_is_Exception e = true
  /\ nested_identifier response = None
  /\ st1 = st /\ t1 = [].
Proof.
  rewrite interpret_response_cases.
  destruct (nested_identifier response) as [id|]; [discriminate|].
  destruct (inspection_error response) as [e'|] eqn:E; [|discriminate].
  intros [= <- <- <-]. repeat split.
  - eapply inspection_error_is_TypeError; eassumption.
  - eapply inspection_error_is_Exception; eassumption.
Qed.

(** X10: on a run with no [create_tweet] call, what [_run] returns is
    the helper's rendering of the limiter's message, of the missing-client
    message or of a caught exception's message, and that message is not the
    success text; the success string of line 67 and the failed-post message
    of line 68 are returned only after a request was sent. *)
Theorem no_request_no_success (tweet_id text : string) (st : state W) :
  requests (calls (run tweet_id text st)) = 0 ->
  match outcome (run tweet_id text st) with
  | Ok s =>
      exists msg,
        s = helper msg
        /\ ((exists error, msg = "Error replying to tweet: " ++ show error)
            \/ msg = "Failed to get Twitter client. Please check your authentication."
            \/ (exists e, exn_is_Exception e = true
                          /\ msg = "Error posting reply tweet: " ++ exn_str e))
        /\ (forall id, msg <> "Reply posted successfully! Reply Tweet ID: " ++ id)
        /\ msg <> "Failed to post reply tweet."
  | Raise e => exn_is_Exception e = false
  end.
Proof.
  run_tree; cbn [calls outcome fst snd app requests filter is_create_tweet length];
    try discriminate; intros _; try assumption;
    eexists; (split; [reflexivity|]); (split; [|split; [intros id|]; discriminate]).
  all: first
    [ left; eexists; reflexivity
    | right; left; reflexivity
    | right; right; eexists; split; [eassumption | reflexivity] ].
Qed.

End Properties.

(** * The properties at work on the concrete collaborators *)

Lemma sample_helper_names_alice (t : Collaborators nat unit) (msg : string) :
  _get_error_with_username t = (fun m => "Error for Twitter user @alice: " ++ m) ->
  Embeds "alice" (_get_error_with_username t msg).
Proof.
  intros ->. now exists "Error for Twitter user @", (": " ++ msg).
Qed.

Lemma sample_helper_keeps_message (t : Collaborators nat unit) (msg : string) :
  _get_error_with_username t = (fun m => "Error for Twitter user @alice: " ++ m) ->
  Embeds msg (_get_error_with_username t msg).
Proof. intros ->. apply Embeds_suffix. Qed.

(** With 48 requests already counted, the 49th is turned away before any
    client is asked for; the string names alice and carries the limiter's
    message. *)
Lemma rate_limited_call_returns_error_witness :
  _run Sample.repr (Sample.twitter false (Ok (Some tt)) (Ok (Sample.posted "123")))
       "77" "hello" (Sample.start 48)
  = (Ok "Error for Twitter user @alice: Error replying to tweet: Rate limit exceeded",
     Sample.start 48, [EvUseKey; EvCheckRateLimit 48 1440])
  /\ Embeds "Rate limit exceeded"
       "Error for Twitter user @alice: Error replying to tweet: Rate limit exceeded"
  /\ Embeds "alice"
       "Error for Twitter user @alice: Error replying to tweet: Rate limit exceeded".
Proof.
  destruct (@rate_limited_call_returns_error nat unit Sample.repr
              (Sample.twitter false (Ok (Some tt)) (Ok (Sample.posted "123")))
              "77" "hello" (Sample.start 48) 48 48 (PyStr "Rate limit exceeded"))
    as (Hrun & _ & _ & Hnamed).
  - reflexivity.
  - reflexivity.
  - destruct (Hnamed (Some "alice")) as (_ & Hmsg & Hcaller).
    + intros msg. reflexivity.
    + split; [exact Hrun|]. split; [exact Hmsg|]. now apply Hcaller.
Defined.

(** Key-based authentication, no client. *)
Lemma missing_client_returns_error_witness :
  _run Sample.repr (Sample.twitter true (Ok None) (Ok (Sample.posted "123")))
       "77" "hello" (Sample.start 48)
  = (Ok "Error for Twitter user @alice: Failed to get Twitter client. Please check your authentication.",
     Sample.start 48, [EvUseKey; EvGetClient]).
Proof.
  refine (proj1 (missing_client_returns_error Sample.repr
                   (Sample.twitter true (Ok None) (Ok (Sample.posted "123")))
                   "77" "hello" (Sample.start 48)
                   (st1 := Sample.start 48) (t1 := [EvUseKey]) (w2 := 48) _ _)).
  - reflexivity.
  - reflexivity.
Defined.

(** The platform client raises an [Exception] whose message is "timeout":
    the returned string contains "timeout". *)
Lemma exception_in_steps_2_to_4_witness :
  _run Sample.repr (Sample.twitter true (Ok (Some tt)) (Raise (Exception "timeout")))
       "77" "hello" (Sample.start 0)
  = (Ok "Error for Twitter user @alice: Error posting reply tweet: timeout",
     Sample.start 0, [EvUseKey; EvGetClient; EvUseKey; EvCreateTweet "hello" true "77"])
  /\ Embeds "timeout" "Error for Twitter user @alice: Error posting reply tweet: timeout".
Proof.
  refine (@exception_in_steps_2_to_4 nat unit Sample.repr
            (Sample.twitter true (Ok (Some tt)) (Raise (Exception "timeout")))
            "77" "hello" (Sample.start 0) (Sample.start 0) (Sample.start 0)
            [EvUseKey] [EvGetClient; EvUseKey; EvCreateTweet "hello" true "77"]
            (Exception "timeout") _ _ _).
  - intros msg. now apply sample_helper_keeps_message.
  - reflexivity.
  - now apply (@create_tweet_raises nat unit
                 (Sample.twitter true (Ok (Some tt)) (Raise (Exception "timeout")))
                 "77" "hello" (Sample.start 0) (Exception "timeout") tt true 0 0 0).
Defined.

(** C3 as the specification states it fails: the platform client is interrupted
    ([KeyboardInterrupt] derives from [BaseException] only) and [_run] raises
    instead of returning a string. *)
Lemma keyboard_interrupt_leaves_run :
  outcome (_run Sample.repr
             (Sample.twitter true (Ok (Some tt)) (Raise (KeyboardInterrupt "")))
             "77" "hello" (Sample.start 0))
  = Raise (KeyboardInterrupt "")
  /\ ~ (exists s : string,
          outcome (_run Sample.repr
                     (Sample.twitter true (Ok (Some tt)) (Raise (KeyboardInterrupt "")))
                     "77" "hello" (Sample.start 0))
          = Ok s).
Proof.
  split; [reflexivity|]. intros [s H]. discriminate H.
Qed.

(** The limiter itself fails with an [Exception]. *)
Lemma exception_in_step_1_witness :
  _run Sample.repr
       (Sample.with_limiter (Sample.failing_limiter (Exception "store unavailable"))
          (Sample.twitter false (Ok (Some tt)) (Ok (Sample.posted "123"))))
       "77" "hello" (Sample.start 0)
  = (Ok "Error for Twitter user @alice: Error posting reply tweet: store unavailable",
     Sample.start 0, [EvUseKey; EvCheckRateLimit 48 1440]).
Proof.
  refine (proj1 (@exception_in_step_1 nat unit Sample.repr
                   (Sample.with_limiter
                      (Sample.failing_limiter (Exception "store unavailable"))
                      (Sample.twitter false (Ok (Some tt)) (Ok (Sample.posted "123"))))
                   "77" "hello" (Sample.start 0) (Sample.start 0)
                   [EvUseKey; EvCheckRateLimit 48 1440]
                   (Exception "store unavailable") _ _)).
  - intros msg. now apply sample_helper_keeps_message.
  - now apply (@check_raises nat unit
                 (Sample.with_limiter
                    (Sample.failing_limiter (Exception "store unavailable"))
                    (Sample.twitter false (Ok (Some tt)) (Ok (Sample.posted "123"))))
                 (Sample.start 0) (Exception "store unavailable") 0 0).
Defined.

(** C10 as the specification states it fails: the limiter is interrupted
    and [_run] raises. *)
Lemma interrupted_limiter_leaves_run :
  outcome (_run Sample.repr
             (Sample.with_limiter (Sample.failing_limiter (KeyboardInterrupt ""))
                (Sample.twitter false (Ok (Some tt)) (Ok (Sample.posted "123"))))
             "77" "hello" (Sample.start 0))
  = Raise (KeyboardInterrupt "")
  /\ ~ (exists s : string,
          outcome (_run Sample.repr
                     (Sample.with_limiter (Sample.failing_limiter (KeyboardInterrupt ""))
                        (Sample.twitter false (Ok (Some tt)) (Ok (Sample.posted "123"))))
                     "77" "hello" (Sample.start 0))
          = Ok s).
Proof.
  split; [reflexivity|]. intros [s H]. discriminate H.
Qed.

(** The platform answers with the identifier "123". *)
Lemma response_interpretation_witness :
  outcome (_run Sample.repr
             (Sample.twitter false (Ok (Some tt)) (Ok (Sample.posted "123")))
             "77" "hello" (Sample.start 0))
  = Ok "Reply posted successfully! Reply Tweet ID: 123".
Proof.
  refine (proj1 (response_interpretation Sample.repr
                   (Sample.twitter false (Ok (Some tt)) (Ok (Sample.posted "123")))
                   "77" "hello" (Sample.start 0)
                   (st2 := Sample.start 1)
                   (t := [EvUseKey; EvCheckRateLimit 48 1440; EvGetClient; EvUseKey;
                          EvCreateTweet "hello" false "77"])
                   (response := Sample.posted "123") _) (PyStr "123") _).
  - reflexivity.
  - reflexivity.
Defined.

(** C4 as the specification states it fails: the answer [{"data": None}] holds no
    identifier at [data.id], and what [_run] returns is not the generic
    failure string but the rendering of the [TypeError] of line 65. *)
Lemma data_none_is_not_the_generic_failure :
  nested_identifier (PyDict [("data", PyNone)]) = None
  /\ outcome (_run Sample.repr
                (Sample.twitter true (Ok (Some tt)) (Ok (PyDict [("data", PyNone)])))
                "77" "hello" (Sample.start 0))
     = Ok "Error for Twitter user @alice: Error posting reply tweet: argument of type 'NoneType' is not iterable"
  /\ outcome (_run Sample.repr
                (Sample.twitter true (Ok (Some tt)) (Ok (PyDict [("data", PyNone)])))
                "77" "hello" (Sample.start 0))
     <> Ok (_get_error_with_username
              (Sample.twitter true (Ok (Some tt)) (Ok (PyDict [("data", PyNone)])))
              "Failed to post reply tweet.").
Proof.
  split; [reflexivity|]. split; [reflexivity|]. discriminate.
Qed.

(** A text of 281 characters. *)
Lemma long_text_fails_validation_witness :
  (exists errors,
     TwitterReplyTweetInput_init
       {| raw_tweet_id := Some "77"; raw_text := Some Sample.long_text |}
     = ValidationError errors
     /\ In ("text", StringTooLong 280) errors)
  /\ (exists errors,
        execute Sample.repr
          (Sample.twitter true (Ok (Some tt)) (Ok (Sample.posted "123")))
          {| raw_tweet_id := Some "77"; raw_text := Some Sample.long_text |}
          (Sample.start 0)
        = (Rejected errors, Sample.start 0, [])).
Proof.
  apply (@long_text_fails_validation nat unit Sample.repr
           (Sample.twitter true (Ok (Some tt)) (Ok (Sample.posted "123")))
           (Some "77") Sample.long_text (Sample.start 0)).
  - vm_compute. lia.
  - reflexivity.
Defined.

Example long_text_is_rejected :
  execute Sample.repr
    (Sample.twitter true (Ok (Some tt)) (Ok (Sample.posted "123")))
    {| raw_tweet_id := Some "77"; raw_text := Some Sample.long_text |}
    (Sample.start 0)
  = (Rejected [("text", StringTooLong 280)], Sample.start 0, []).
Proof. reflexivity. Qed.

(** The empty identifier with a short text. *)
Lemma tweet_id_needs_only_presence_witness :
  TwitterReplyTweetInput_init {| raw_tweet_id := Some ""; raw_text := Some "hello" |}
  = Valid {| tweet_id := ""; text := "hello" |}
  /\ execute Sample.repr
       (Sample.twitter true (Ok (Some tt)) (Ok (Sample.posted "123")))
       {| raw_tweet_id := Some ""; raw_text := Some "hello" |} (Sample.start 0)
     = (Executed (Ok "Reply posted successfully! Reply Tweet ID: 123"),
        Sample.start 0,
        [EvUseKey; EvGetClient; EvUseKey; EvCreateTweet "hello" true ""]).
Proof.
  refine (@tweet_id_needs_only_presence nat unit Sample.repr
            (Sample.twitter true (Ok (Some tt)) (Ok (Sample.posted "123")))
            (Some "") "hello" (Sample.start 0) _ _).
  - cbn. lia.
  - reflexivity.
Defined.

(** C8 as the specification states it fails: the empty [tweet_id] is not rejected.
    The schema accepts it, and [_run] replies to it like to any other,
    handing it to the platform. *)
Lemma empty_tweet_id_is_accepted :
  TwitterReplyTweetInput_init {| raw_tweet_id := Some ""; raw_text := Some "hello" |}
  = Valid {| tweet_id := ""; text := "hello" |}
  /\ ~ (exists errors,
          TwitterReplyTweetInput_init
            {| raw_tweet_id := Some ""; raw_text := Some "hello" |}
          = ValidationError errors)
  /\ _run Sample.repr
       (Sample.twitter true (Ok (Some tt)) (Ok (Sample.posted "123")))
       "" "hello" (Sample.start 0)
     = (Ok "Reply posted successfully! Reply Tweet ID: 123",
        Sample.start 0,
        [EvUseKey; EvGetClient; EvUseKey; EvCreateTweet "hello" true ""]).
Proof.
  split; [reflexivity|]. split; [|reflexivity].
  intros [errors H]. discriminate H.
Qed.

(** * Further properties *)

(** X8: constructing a [TwitterReplyTweetInput] succeeds exactly when both
    fields are given and the text has at most 280 characters; the input then
    holds the two strings as they were given.  Nothing else is asked: an
    empty identifier and an empty text are valid. *)
Theorem input_is_valid_iff (raw : raw_input) (input : TwitterReplyTweetInput) :
  TwitterReplyTweetInput_init raw = Valid input
  <-> raw_tweet_id raw = Some (tweet_id input)
      /\ raw_text raw = Some (text input)
      /\ String.length (text input) <= 280.
Proof.
  destruct raw as [[i|] [t|]], input as [i' t'];
    unfold TwitterReplyTweetInput_init, validate_text; cbn.
  - destruct (Nat.leb_spec (String.length t) 280) as [Hle|Hgt].
    + split.
      * intros [= -> ->]. auto.
      * intros ([= ->] & [= ->] & _). reflexivity.
    + split; [discriminate|].
      intros (_ & [= ->] & Hlen). lia.
  - split; [discriminate | intros (_ & H & _); discriminate H].
  - split; [|intros (H & _); discriminate H].
    destruct (String.length t <=? 280)%nat; discriminate.
  - split; [discriminate | intros (H & _); discriminate H].
Qed.

(** X9: under key-based authentication the limiter plays no part.  Two
    sets of collaborators that differ in [check_rate_limit] only give the
    same run (result, final state and calls) whenever the first read of the
    flag does not give false. *)
Theorem limiter_is_irrelevant_under_key_auth
    (W Client : Type) (py_repr : pyval -> string)
    (twitter other : Collaborators W Client)
    (tweet_id text : string) (st : state W) :
  use_key other = use_key twitter ->
  get_client other = get_client twitter ->
  create_tweet other = create_tweet twitter ->
  _get_error_with_username other = _get_error_with_username twitter ->
  fst (use_key twitter (world st)) <> Ok false ->
  _run py_repr other tweet_id text st = _run py_repr twitter tweet_id text st.
Proof.
  intros Hkey Hclient Hcreate Hhelper Hflag.
  rewrite !_run_cases; cbv zeta.
  rewrite !rate_limit_gate_cases, Hkey, Hhelper.
  destruct (use_key twitter (world st)) as [[[|]|e] w1]; cbn in Hflag;
    try congruence.
  rewrite !request_reply_cases, Hkey, Hclient, Hcreate, Hhelper.
  reflexivity.
Qed.

(** * The further properties at work *)

(** A first reply under session authentication. *)
Lemma request_is_built_from_the_arguments_witness :
  calls (_run Sample.repr
           (Sample.twitter false (Ok (Some tt)) (Ok (Sample.posted "123")))
           "77" "hello" (Sample.start 0))
  = [EvUseKey; EvCheckRateLimit 48 1440; EvGetClient; EvUseKey;
     EvCreateTweet "hello" false "77"]
  /\ final (_run Sample.repr
              (Sample.twitter false (Ok (Some tt)) (Ok (Sample.posted "123")))
              "77" "hello" (Sample.start 0))
     = Sample.start 1.
Proof.
  apply (@request_is_built_from_the_arguments nat unit Sample.repr
           (Sample.twitter false (Ok (Some tt)) (Ok (Sample.posted "123")))
           "77" "hello" (Sample.start 0) (Sample.start 1)
           [EvUseKey; EvCheckRateLimit 48 1440] tt false 1 1).
  - reflexivity.
  - reflexivity.
  - reflexivity.
Defined.

Lemma requests_carry_text_and_id_witness :
  "hello" = "hello" /\ "77" = "77".
Proof.
  apply (@requests_carry_text_and_id nat unit Sample.repr
           (Sample.twitter true (Ok (Some tt)) (Raise (Exception "timeout")))
           "77" "hello" (Sample.start 0) "hello" "77" true).
  vm_compute. auto.
Defined.

Lemma stable_flag_decides_user_auth_witness :
  true = true
  /\ (In (EvCheckRateLimit 48 1440)
        (calls (_run Sample.repr
                  (Sample.twitter true (Ok (Some tt)) (Ok (Sample.posted "123")))
                  "77" "hello" (Sample.start 48)))
      <-> true = false).
Proof.
  apply (@stable_flag_decides_user_auth nat unit Sample.repr
           (Sample.twitter true (Ok (Some tt)) (Ok (Sample.posted "123")))
           true "77" "hello" (Sample.start 48) "hello" "77" true).
  - intros w. reflexivity.
  - vm_compute. auto.
Defined.

(** The answer [{"data": None}]. *)
Lemma inspection_raises_only_TypeError_witness :
  exn_class (TypeError "argument of type 'NoneType' is not iterable") = "TypeError"
  /\ exn_is_Exception (TypeError "argument of type 'NoneType' is not iterable") = true
  /\ nested_identifier (PyDict [("data", PyNone)]) = None
  /\ Sample.start 0 = Sample.start 0
  /\ @nil event = [].
Proof.
  apply (@inspection_raises_only_TypeError nat unit Sample.repr
           (Sample.twitter true (Ok (Some tt)) (Ok (PyDict [("data", PyNone)])))
           (PyDict [("data", PyNone)]) (Sample.start 0) (Sample.start 0) []
           (TypeError "argument of type 'NoneType' is not iterable")).
  reflexivity.
Defined.

(** Key-based authentication with a limiter that fails: the run is the one
    with the counting limiter. *)
Lemma limiter_is_irrelevant_under_key_auth_witness :
  _run Sample.repr
    (Sample.with_limiter (Sample.failing_limiter (Exception "store unavailable"))
       (Sample.twitter true (Ok (Some tt)) (Ok (Sample.posted "123"))))
    "77" "hello" (Sample.start 48)
  = _run Sample.repr
      (Sample.twitter true (Ok (Some tt)) (Ok (Sample.posted "123")))
      "77" "hello" (Sample.start 48).
Proof.
  apply (@limiter_is_irrelevant_under_key_auth nat unit Sample.repr
           (Sample.twitter true (Ok (Some tt)) (Ok (Sample.posted "123")))
           (Sample.with_limiter (Sample.failing_limiter (Exception "store unavailable"))
              (Sample.twitter true (Ok (Some tt)) (Ok (Sample.posted "123"))))
           "77" "hello" (Sample.start 48)).
  - reflexivity.
  - reflexivity.
  - reflexivity.
  - reflexivity.
  - cbn. discriminate.
Defined.

(** The 49th request of the window. *)
Lemma no_request_no_success_witness :
  exists msg,
    "Error for Twitter user @alice: Error replying to tweet: Rate limit exceeded"
    = _get_error_with_username
        (Sample.twitter false (Ok (Some tt)) (Ok (Sample.posted "123"))) msg
    /\ ((exists error, msg = "Error replying to tweet: " ++ py_str Sample.repr error)
        \/ msg = "Failed to get Twitter client. Please check your authentication."
        \/ (exists e, exn_is_Exception e = true
                      /\ msg = "Error posting reply tweet: " ++ exn_str e))
    /\ (forall id, msg <> "Reply posted successfully! Reply Tweet ID: " ++ id)
    /\ msg <> "Failed to post reply tweet.".
Proof.
  apply (@no_request_no_success nat unit Sample.repr
           (Sample.twitter false (Ok (Some tt)) (Ok (Sample.posted "123")))
           "77" "hello" (Sample.start 48)).
  reflexivity.
Defined.
